(** * knx: the home route and the Welcome component

    A shallow embedding of the two source files that carry the program's
    behaviour:

    - the home route module ([meta], [loader], [Home]), and
    - [app/welcome/welcome.tsx] ([Welcome]).

    TypeScript's types are erased when the program runs, so the functions
    are embedded over run-time JavaScript values: each takes the single
    argument object the framework calls it with and either returns or
    throws.  JSX is embedded as the element tree it builds. *)

From stdpp Require Import gmap strings.

Open Scope string_scope.

(** ** JavaScript values *)

#[local] Set Warnings "-register-all".

(** Run-time values.  An object is the finite map of the properties a read
    can reach on it; functions, arrays and platform bindings are objects as
    far as a property read goes.  Numbers are the integral ones. *)
Inductive value : Type :=
| VUndefined
| VNull
| VBool (b : bool)
| VNumber (n : Z)
| VString (s : string)
| VObject (props : gmap string value).

(** The only exception these functions can raise: reading a property of
    [undefined] or [null]. *)
Inductive error : Type :=
| TypeError.

Inductive result (A : Type) : Type :=
| Ok (a : A)
| Throw (e : error).
Arguments Ok {A} a.
Arguments Throw {A} e.

(** Sequencing: a thrown exception ends the call.  The instances give
    stdpp's [x ← r; k] notation. *)
#[export] Instance result_ret : MRet result := λ A a, Ok a.
#[export] Instance result_bind : MBind result := λ A B k r,
  match r with
  | Ok a => k a
  | Throw e => Throw e
  end.

(** What a read of a property of an object yields: the property's value,
    [undefined] when the object has no such property. *)
Definition prop (o : gmap string value) (k : string) : value :=
  default VUndefined (o !! k).

(** The read [v.k], also the read a destructuring parameter [{ k }] makes.
    It throws on [undefined] and [null].  A boolean, number or string has
    only the properties of its built-in prototype, and none of those bears
    a name this program reads. *)
Definition get (v : value) (k : string) : result value :=
  match v with
  | VUndefined | VNull => Throw TypeError
  | VObject o => Ok (prop o k)
  | VBool _ | VNumber _ | VString _ => Ok VUndefined
  end.

(** JavaScript's ToBoolean. *)
Definition truthy (v : value) : bool :=
  match v with
  | VUndefined | VNull => false
  | VBool b => b
  | VNumber n => negb (n =? 0)%Z
  | VString s => negb (String.eqb s "")
  | VObject _ => true
  end.

(** ** The route module *)

(** [export function meta(_args)]: the array literal as a list. *)
Definition meta (_args : value) : list value :=
  [ VObject {[ "title" := VString "Kognova Nexus" ]};
    VObject {[ "name" := VString "description";
               "content" := VString "Centralized Document Repository" ]} ].

(** [export function loader({ context })]. *)
Definition loader (args : value) : result value :=
  context ← get args "context";
  cloudflare ← get context "cloudflare";
  env ← get cloudflare "env";
  VALUE_FROM_CLOUDFLARE ← get env "VALUE_FROM_CLOUDFLARE";
  Ok (VObject {[ "message" := VALUE_FROM_CLOUDFLARE ]}).

(** ** React elements *)

(** What JSX builds.  A child in braces is whatever value the expression
    has; literal JSX text is a string child.  The host elements of this
    program carry a [className] and children and nothing else. *)
Inductive node : Type :=
| NValue (v : value)
| NHost (tag className : string) (children : list node)
| NWelcome (props : value).

(** [a && b] with an element on the right: the element when [a] is truthy,
    [a] itself otherwise. *)
Definition and_then (a : value) (b : node) : node :=
  if truthy a then b else NValue a.

(** ** [app/welcome/welcome.tsx] *)

(** [export function Welcome({ message })]. *)
Definition Welcome (props : value) : result node :=
  message ← get props "message";
  Ok (NHost "main" "flex items-center justify-center min-h-screen bg-gray-100 dark:bg-gray-900"
        [ NHost "div" "text-center p-8"
            [ NHost "h1" "text-5xl font-bold mb-6 text-gray-800 dark:text-white"
                [ NValue (VString "Kognova Nexus MotherFucker") ];
              NHost "p" "text-xl text-gray-600 dark:text-gray-300"
                [ NValue (VString "A centralized document repository") ];
              and_then message
                (NHost "div" "mt-8 p-4 bg-white dark:bg-gray-800 rounded-lg shadow"
                   [ NHost "p" "text-gray-700 dark:text-gray-300"
                       [ NValue message ] ]) ] ]).

(** [export default function Home({ loaderData })]: the element
    [<Welcome message={loaderData.message} />]. *)
Definition Home (props : value) : result node :=
  loaderData ← get props "loaderData";
  message ← get loaderData "message";
  Ok (NWelcome (VObject {[ "message" := message ]})).

(** ** The request cycle *)

(** React's part in it: an element whose type is a component is replaced by
    what the component returns for the element's props; host elements are
    kept, their children rendered in turn; value children stay as they
    are (what the DOM shows for them is React's business). *)
Fixpoint render (n : node) : result node :=
  match n with
  | NValue v => Ok (NValue v)
  | NHost tag className children =>
      children' ← mapM render children;
      Ok (NHost tag className children')
  | NWelcome props => Welcome props
  end.

(** One request, as the spec's system overview has it: the route loader
    runs on the request context, the route component is called with the
    loader's result and its element is rendered. *)
Definition page (args : value) : result node :=
  loaderData ← loader args;
  element ← Home (VObject {[ "loaderData" := loaderData ]});
  render element.

(** ** Reading an element tree *)

Definition children (n : node) : list node :=
  match n with
  | NHost _ _ cs => cs
  | _ => []
  end.

Definition tag (n : node) : string :=
  match n with
  | NHost t _ _ => t
  | _ => ""
  end.

(** The node and everything below it, in document order. *)
Fixpoint subnodes (n : node) : list node :=
  n :: match n with
       | NHost _ _ cs => flat_map subnodes cs
       | _ => []
       end.

(** The banner: the rounded, shadowed container. *)
Definition is_banner (n : node) : bool :=
  match n with
  | NHost t c _ =>
      bool_decide (t = "div" ∧ c = "mt-8 p-4 bg-white dark:bg-gray-800 rounded-lg shadow")
  | _ => false
  end.

Definition has_banner (n : node) : bool := existsb is_banner (subnodes n).

Definition find_banner (n : node) : option node :=
  List.find is_banner (subnodes n).

(** Children React mounts nothing for: [undefined], [null], booleans and
    the empty string. *)
Definition renders_nothing (n : node) : bool :=
  match n with
  | NValue (VUndefined | VNull | VBool _) => true
  | NValue (VString s) => bool_decide (s = "")
  | _ => false
  end.

(** The tree with every banner, and every child that mounts nothing,
    taken out. *)
Fixpoint without_banner (n : node) : node :=
  match n with
  | NHost t c cs =>
      NHost t c
        (flat_map (λ k, if is_banner k || renders_nothing k then []
                        else [without_banner k]) cs)
  | _ => n
  end.


Definition is_string (v : value) : bool :=
  match v with
  | VString _ => true
  | _ => false
  end.

(** ** Request contexts *)

(** Modelled from the spec: the declarations of [Route.LoaderArgs]
    ([./+types/home]) and of the load context the edge request handler
    builds are not among the sources.  A request context is an argument
    object whose [context.cloudflare.env] is the environment, an object;
    nothing is asked of what the environment holds, nor of what else the
    three objects around it hold. *)
Inductive request_context : value → gmap string value → Prop :=
| RequestContext (args context cloudflare env : gmap string value) :
    args !! "context" = Some (VObject context) →
    context !! "cloudflare" = Some (VObject cloudflare) →
    cloudflare !! "env" = Some (VObject env) →
    request_context (VObject args) env.

(** The props React calls [Welcome] with for [<Welcome message={m} />]. *)
Definition message_props (m : value) : value := VObject {[ "message" := m ]}.

(** ** Sample requests *)

(** The argument object the framework passes to the loader, around a given
    environment. *)
Definition request_of (env : gmap string value) : value :=
  VObject {[ "request" := VObject ∅;
             "params" := VObject ∅;
             "context" :=
               VObject {[ "cloudflare" :=
                            VObject {[ "env" := VObject env;
                                       "ctx" := VObject ∅ ]} ]} ]}.

(** An environment that defines the variable, next to another one. *)
Definition env_hello : gmap string value :=
  {[ "VALUE_FROM_CLOUDFLARE" := VString "Hello from Cloudflare";
     "OTHER_BINDING" := VObject ∅ ]}.

(** The same variable, different surroundings. *)
Definition env_hello_alone : gmap string value :=
  {[ "VALUE_FROM_CLOUDFLARE" := VString "Hello from Cloudflare" ]}.

(** An environment that does not define the variable. *)
Definition env_unset : gmap string value :=
  {[ "OTHER_BINDING" := VObject ∅ ]}.

(** Props with a message and something else beside it. *)
Definition props_hello : gmap string value :=
  {[ "message" := VString "Hello from Cloudflare"; "key" := VNull ]}.


(** ** When a read throws *)

(** The values a property read throws on. *)
Definition nullish (v : value) : bool :=
  match v with
  | VUndefined | VNull => true
  | _ => false
  end.

(** What the read [v.k] yields where it does not throw. *)
Definition member (v : value) (k : string) : value :=
  match v with
  | VObject o => prop o k
  | _ => VUndefined
  end.

(** * Properties *)

(** ** Calls that return *)

Lemma get_object (o : gmap string value) (k : string) :
  get (VObject o) k = Ok (prop o k).
Proof. reflexivity. Qed.

Lemma prop_lookup (o : gmap string value) (k : string) (v : value) :
  o !! k = Some v → prop o k = v.
Proof. intros H. unfold prop. by rewrite H. Qed.

Lemma prop_missing (o : gmap string value) (k : string) :
  o !! k = None → prop o k = VUndefined.
Proof. intros H. unfold prop. by rewrite H. Qed.

Lemma prop_message (m : value) :
  prop {[ "message" := m ]} "message" = m.
Proof. apply prop_lookup, lookup_singleton_eq. Qed.

Lemma bind_Ok {A B : Type} (a : A) (k : A → result B) :
  (Ok a ≫= k) = k a.
Proof. reflexivity. Qed.

(** The reads do throw where JavaScript's do. *)
Example loader_throws_without_context :
  loader (VObject ∅) = Throw TypeError.
Proof. reflexivity. Qed.

Example Welcome_throws_without_props :
  Welcome VUndefined = Throw TypeError.
Proof. reflexivity. Qed.

Example loader_hello :
  loader (request_of env_hello)
  = Ok (message_props (VString "Hello from Cloudflare")).
Proof. vm_compute. reflexivity. Qed.

(** Rewrites a call down to what it returns, one read at a time. *)
Ltac step :=
  repeat first
    [ rewrite get_object
    | rewrite bind_Ok
    | erewrite prop_lookup by eassumption ].

(** The loader on a request context: the object literal around the one
    value read from the environment. *)
Lemma loader_on_context (args : value) (env : gmap string value) :
  request_context args env →
  loader args = Ok (VObject {[ "message" := prop env "VALUE_FROM_CLOUDFLARE" ]}).
Proof.
  intros [a c cf e Hc Hcf He]. unfold loader. by step.
Qed.

(** [Welcome] sees its props through the [message] property alone. *)
Lemma Welcome_message (props : gmap string value) :
  Welcome (VObject props) = Welcome (message_props (prop props "message")).
Proof.
  unfold Welcome, message_props. step. by rewrite prop_message.
Qed.

Lemma Home_on_loaderData (props : gmap string value) (ld : gmap string value) :
  props !! "loaderData" = Some (VObject ld) →
  Home (VObject props) = Ok (NWelcome (message_props (prop ld "message"))).
Proof.
  intros H. unfold Home. by step.
Qed.

Lemma request_of_context (env : gmap string value) :
  request_context (request_of env) env.
Proof. by econstructor. Qed.

(** [Welcome] returns for whatever object its props are. *)
Lemma Welcome_returns (props : gmap string value) :
  ∃ out, Welcome (VObject props) = Ok out.
Proof. unfold Welcome. step. by eexists. Qed.




(** ** The loader *)

Section loader_properties.
Context (args : value) (env : gmap string value).
Context (Hctx : request_context args env).

(** C2: on every request context the loader returns the object whose
    [message] field is the value of the environment's
    VALUE_FROM_CLOUDFLARE, as the one read of it yields it; the result is
    the object literal around that value and nothing computed from it. *)
Theorem loader_returns_env_value :
  ∃ ld, loader args = Ok ld
    ∧ get ld "message" = get (VObject env) "VALUE_FROM_CLOUDFLARE"
    ∧ ld = VObject {[ "message" := prop env "VALUE_FROM_CLOUDFLARE" ]}.
Proof.
  eexists. split; [by apply loader_on_context|]. split; [|done].
  by rewrite !get_object, prop_message.
Qed.

(** C10: the loader's result is an object with the key [message] and no
    other: every other property of it reads as absent. *)
Theorem loader_result_single_key :
  ∃ o : gmap string value, loader args = Ok (VObject o)
    ∧ dom o = {[ "message" ]}
    ∧ ∀ k, k ≠ "message" → o !! k = None.
Proof.
  eexists. split; [by apply loader_on_context|]. split.
  - apply dom_singleton_L.
  - intros k Hk. by apply lookup_singleton_ne.
Qed.

End loader_properties.

(** ** The message on its way from the loader to [Welcome] *)

(** C3, as amended: on every request context the loader's [message] is a
    string exactly when the environment defines VALUE_FROM_CLOUDFLARE as a
    string, and is then that string; where the environment does not define
    the variable the message is [undefined].  [Welcome] is defined for
    every string message. *)
Theorem message_string_iff_env_string
    (args : value) (env : gmap string value) (s' : string) :
  request_context args env →
  ∃ ld m, loader args = Ok ld ∧ get ld "message" = Ok m
    ∧ (∀ s, m = VString s ↔ env !! "VALUE_FROM_CLOUDFLARE" = Some (VString s))
    ∧ (env !! "VALUE_FROM_CLOUDFLARE" = None → m = VUndefined)
    ∧ ∃ out, Welcome (message_props (VString s')) = Ok out.
Proof.
  intros Hctx. do 2 eexists.
  split; [by apply loader_on_context|].
  split; [by rewrite get_object, prop_message|].
  split; [|split; [apply prop_missing | apply Welcome_returns]].
  intros s. unfold prop.
  destruct (env !! "VALUE_FROM_CLOUDFLARE") as [v|]; simpl; [|done].
  split; congruence.
Qed.

(** C4: neither function has an error condition.  On every request
    context the loader returns, also where the environment does not define
    VALUE_FROM_CLOUDFLARE (it then returns the object with an [undefined]
    message); on every props object whose message is a string [Welcome]
    returns an element. *)
Theorem no_error_condition
    (args : value) (env props : gmap string value) (s : string) :
  request_context args env →
  props !! "message" = Some (VString s) →
  (∃ ld, loader args = Ok ld)
  ∧ (env !! "VALUE_FROM_CLOUDFLARE" = None →
     loader args = Ok (message_props VUndefined))
  ∧ (∃ out, Welcome (VObject props) = Ok out).
Proof.
  intros Hctx Hm. split; [|split].
  - eexists. by apply loader_on_context.
  - intros Hnone. rewrite (loader_on_context _ _ Hctx).
    by rewrite (prop_missing _ _ Hnone).
  - apply Welcome_returns.
Qed.

(** C5: the value passes through unchanged.  For the result of the loader
    on a request context, [Home] called with that result as its
    [loaderData] returns the [Welcome] element for the result's [message],
    which renders as [Welcome] applied to it; the message is the value the
    loader read from the environment, and so the whole request renders
    [Welcome] of that value. *)
Theorem home_passes_message_unchanged
    (args ld : value) (env props : gmap string value) :
  request_context args env →
  loader args = Ok ld →
  props !! "loaderData" = Some ld →
  ∃ m, get ld "message" = Ok m
    ∧ m = prop env "VALUE_FROM_CLOUDFLARE"
    ∧ Home (VObject props) = Ok (NWelcome (message_props m))
    ∧ render (NWelcome (message_props m)) = Welcome (message_props m)
    ∧ page args = Welcome (message_props m).
Proof.
  intros Hctx Hld Hprops.
  rewrite (loader_on_context _ _ Hctx) in Hld. injection Hld as <-.
  eexists. split; [by rewrite get_object, prop_message|].
  split; [done|]. split; [|split; [done|]].
  - rewrite (Home_on_loaderData _ _ Hprops). by rewrite prop_message.
  - unfold page. rewrite (loader_on_context _ _ Hctx), bind_Ok.
    erewrite Home_on_loaderData by apply lookup_singleton_eq.
    by rewrite bind_Ok, prop_message.
Qed.

(** C6: the loader's result depends on the request context through the
    environment's VALUE_FROM_CLOUDFLARE alone, and what [Welcome] returns
    depends on its props through the message alone: two request contexts
    that agree on the variable get identical results whatever else they
    hold, and two props objects with the same message string get identical
    elements.  Both are functions of their argument; there is no store
    they could read or write besides. *)
Theorem loader_and_Welcome_read_one_value
    (args1 args2 : value) (env1 env2 props1 props2 : gmap string value)
    (s : string) :
  request_context args1 env1 →
  request_context args2 env2 →
  env1 !! "VALUE_FROM_CLOUDFLARE" = env2 !! "VALUE_FROM_CLOUDFLARE" →
  props1 !! "message" = Some (VString s) →
  props2 !! "message" = Some (VString s) →
  loader args1 = loader args2
  ∧ Welcome (VObject props1) = Welcome (VObject props2).
Proof.
  intros H1 H2 Henv Hp1 Hp2. split.
  - rewrite (loader_on_context _ _ H1), (loader_on_context _ _ H2).
    unfold prop. by rewrite Henv.
  - rewrite (Welcome_message props1), (Welcome_message props2).
    by rewrite (prop_lookup _ _ _ Hp1), (prop_lookup _ _ _ Hp2).
Qed.

(** ** [Welcome] *)

Section Welcome_properties.
Context (props : gmap string value) (s : string).
Context (Hmessage : props !! "message" = Some (VString s)).

(** What [Welcome] returns for a string message, with the conditional
    child still to be decided. *)
Lemma Welcome_on_string :
  ∃ slot, Welcome (VObject props) =
    Ok (NHost "main" "flex items-center justify-center min-h-screen bg-gray-100 dark:bg-gray-900"
          [ NHost "div" "text-center p-8"
              [ NHost "h1" "text-5xl font-bold mb-6 text-gray-800 dark:text-white"
                  [ NValue (VString "Kognova Nexus MotherFucker") ];
                NHost "p" "text-xl text-gray-600 dark:text-gray-300"
                  [ NValue (VString "A centralized document repository") ];
                slot ] ])
    ∧ slot = (if decide (s = "") then NValue (VString "")
              else NHost "div" "mt-8 p-4 bg-white dark:bg-gray-800 rounded-lg shadow"
                     [ NHost "p" "text-gray-700 dark:text-gray-300"
                         [ NValue (VString s) ] ]).
Proof.
  eexists. split.
  - unfold Welcome. step. reflexivity.
  - unfold and_then. destruct s; by case_decide.
Qed.

(** C1: for a string message, what [Welcome] returns contains the banner
    div if the message is non-empty, and contains no banner div if the
    message is the empty string. *)
Theorem banner_iff_message_nonempty :
  ∃ out, Welcome (VObject props) = Ok out
    ∧ (s ≠ "" → has_banner out = true)
    ∧ (s = "" → has_banner out = false).
Proof.
  destruct Welcome_on_string as (slot & -> & ->).
  eexists. split; [done|]. by case_decide.
Qed.

(** C9: for a non-empty string message the banner is there, once, and
    holds one paragraph whose only child is the message string itself. *)
Theorem banner_shows_message_verbatim :
  s ≠ "" →
  ∃ out b p, Welcome (VObject props) = Ok out
    ∧ find_banner out = Some b
    ∧ filter (λ n, is_banner n = true) (subnodes out) = [b]
    ∧ children b = [p]
    ∧ tag p = "p"
    ∧ children p = [NValue (VString s)].
Proof.
  intros Hs. destruct Welcome_on_string as (slot & -> & ->).
  rewrite decide_False by done.
  by do 3 eexists.
Qed.

End Welcome_properties.

(** C7: everything in what [Welcome] returns besides the optional banner
    is static.  For two string messages the two elements are equal once
    the banner (or the empty child that stands where it would) is taken
    out, and the same heading and the same subtitle paragraph, "A
    centralized document repository", are in both. *)
Theorem markup_static_outside_banner
    (props1 props2 : gmap string value) (s1 s2 : string) :
  props1 !! "message" = Some (VString s1) →
  props2 !! "message" = Some (VString s2) →
  ∃ out1 out2 h p,
    Welcome (VObject props1) = Ok out1
    ∧ Welcome (VObject props2) = Ok out2
    ∧ without_banner out1 = without_banner out2
    ∧ tag h = "h1" ∧ In h (subnodes out1) ∧ In h (subnodes out2)
    ∧ p = NHost "p" "text-xl text-gray-600 dark:text-gray-300"
            [ NValue (VString "A centralized document repository") ]
    ∧ In p (subnodes out1) ∧ In p (subnodes out2).
Proof.
  intros H1 H2.
  destruct (Welcome_on_string _ _ H1) as (slot1 & -> & ->).
  destruct (Welcome_on_string _ _ H2) as (slot2 & -> & ->).
  eexists _, _,
    (NHost "h1" "text-5xl font-bold mb-6 text-gray-800 dark:text-white"
       [ NValue (VString "Kognova Nexus MotherFucker") ]), _.
  split; [done|]. split; [done|].
  split; [by repeat case_decide|].
  split; [done|].
  cbn [subnodes flat_map app In]. auto 10.
Qed.

(** ** [meta] *)

(** C8: [meta] is constant.  Whatever its argument, it returns the list of
    the title entry "Kognova Nexus" and the description entry "Centralized
    Document Repository", these two and in this order. *)
Theorem meta_constant (args : value) :
  meta args =
    [ VObject {[ "title" := VString "Kognova Nexus" ]};
      VObject {[ "name" := VString "description";
                 "content" := VString "Centralized Document Repository" ]} ]
  ∧ length (meta args) = 2
  ∧ (∃ entry, meta args !! 0 = Some entry
       ∧ get entry "title" = Ok (VString "Kognova Nexus"))
  ∧ (∃ entry, meta args !! 1 = Some entry
       ∧ get entry "name" = Ok (VString "description")
       ∧ get entry "content" = Ok (VString "Centralized Document Repository"))
  ∧ ∀ args', meta args' = meta args.
Proof.
  split; [done|]. split; [done|].
  split; [by eexists|]. split; [|done].
  eexists. split; [done|]. by vm_compute.
Qed.

(** ** The properties at sample requests *)

(** C3, as stated, fails: on a request context whose environment does not
    define the variable the loader's message is [undefined], not a
    string. *)
Lemma loader_message_undefined_when_unset :
  request_context (request_of env_unset) env_unset
  ∧ ∃ ld m, loader (request_of env_unset) = Ok ld
      ∧ get ld "message" = Ok m
      ∧ m = VUndefined
      ∧ is_string m = false.
Proof.
  split; [by econstructor|].
  exists (message_props VUndefined), VUndefined. by vm_compute.
Qed.

Lemma banner_iff_message_nonempty_witness :
  props_hello !! "message" = Some (VString "Hello from Cloudflare")
  ∧ ∃ out, Welcome (VObject props_hello) = Ok out
      ∧ ("Hello from Cloudflare" ≠ "" → has_banner out = true)
      ∧ ("Hello from Cloudflare" = "" → has_banner out = false).
Proof.
  split; [reflexivity|].
  apply (banner_iff_message_nonempty props_hello "Hello from Cloudflare").
  reflexivity.
Defined.

Lemma loader_returns_env_value_witness :
  request_context (request_of env_hello) env_hello
  ∧ ∃ ld, loader (request_of env_hello) = Ok ld
      ∧ get ld "message" = get (VObject env_hello) "VALUE_FROM_CLOUDFLARE"
      ∧ ld = VObject {[ "message" := prop env_hello "VALUE_FROM_CLOUDFLARE" ]}.
Proof.
  split; [econstructor; reflexivity|].
  apply (loader_returns_env_value (request_of env_hello) env_hello).
  econstructor; reflexivity.
Defined.

Lemma message_string_iff_env_string_witness :
  request_context (request_of env_hello) env_hello
  ∧ ∃ ld m, loader (request_of env_hello) = Ok ld
      ∧ get ld "message" = Ok m
      ∧ (∀ s, m = VString s ↔
              env_hello !! "VALUE_FROM_CLOUDFLARE" = Some (VString s))
      ∧ (env_hello !! "VALUE_FROM_CLOUDFLARE" = None → m = VUndefined)
      ∧ ∃ out, Welcome (message_props (VString "")) = Ok out.
Proof.
  split; [econstructor; reflexivity|].
  apply (message_string_iff_env_string (request_of env_hello) env_hello "").
  econstructor; reflexivity.
Defined.

Lemma no_error_condition_witness :
  request_context (request_of env_unset) env_unset
  ∧ props_hello !! "message" = Some (VString "Hello from Cloudflare")
  ∧ (∃ ld, loader (request_of env_unset) = Ok ld)
  ∧ (env_unset !! "VALUE_FROM_CLOUDFLARE" = None →
     loader (request_of env_unset) = Ok (message_props VUndefined))
  ∧ (∃ out, Welcome (VObject props_hello) = Ok out).
Proof.
  split; [econstructor; reflexivity|]. split; [reflexivity|].
  apply (no_error_condition (request_of env_unset) env_unset props_hello
           "Hello from Cloudflare").
  - econstructor; reflexivity.
  - reflexivity.
Defined.

Lemma home_passes_message_unchanged_witness :
  request_context (request_of env_hello) env_hello
  ∧ loader (request_of env_hello)
    = Ok (message_props (VString "Hello from Cloudflare"))
  ∧ ∃ m, get (message_props (VString "Hello from Cloudflare")) "message" = Ok m
      ∧ m = prop env_hello "VALUE_FROM_CLOUDFLARE"
      ∧ Home (VObject {[ "loaderData" :=
                           message_props (VString "Hello from Cloudflare") ]})
        = Ok (NWelcome (message_props m))
      ∧ render (NWelcome (message_props m)) = Welcome (message_props m)
      ∧ page (request_of env_hello) = Welcome (message_props m).
Proof.
  split; [econstructor; reflexivity|]. split; [vm_compute; reflexivity|].
  apply (home_passes_message_unchanged (request_of env_hello)
           (message_props (VString "Hello from Cloudflare")) env_hello).
  - econstructor; reflexivity.
  - vm_compute; reflexivity.
  - reflexivity.
Defined.

Lemma loader_and_Welcome_read_one_value_witness :
  env_hello !! "VALUE_FROM_CLOUDFLARE"
  = env_hello_alone !! "VALUE_FROM_CLOUDFLARE"
  ∧ env_hello ≠ env_hello_alone
  ∧ loader (request_of env_hello) = loader (request_of env_hello_alone)
  ∧ Welcome (VObject props_hello)
    = Welcome (message_props (VString "Hello from Cloudflare")).
Proof.
  split; [reflexivity|]. split.
  { intros H. apply (f_equal (λ m : gmap string value, m !! "OTHER_BINDING")) in H.
    vm_compute in H. discriminate H. }
  apply (loader_and_Welcome_read_one_value
           (request_of env_hello) (request_of env_hello_alone)
           env_hello env_hello_alone props_hello
           {[ "message" := VString "Hello from Cloudflare" ]}
           "Hello from Cloudflare").
  - econstructor; reflexivity.
  - econstructor; reflexivity.
  - reflexivity.
  - reflexivity.
  - reflexivity.
Defined.

Lemma markup_static_outside_banner_witness :
  ∃ out1 out2 h p,
    Welcome (VObject props_hello) = Ok out1
    ∧ Welcome (message_props (VString "")) = Ok out2
    ∧ without_banner out1 = without_banner out2
    ∧ tag h = "h1" ∧ In h (subnodes out1) ∧ In h (subnodes out2)
    ∧ p = NHost "p" "text-xl text-gray-600 dark:text-gray-300"
            [ NValue (VString "A centralized document repository") ]
    ∧ In p (subnodes out1) ∧ In p (subnodes out2).
Proof.
  apply (markup_static_outside_banner props_hello {[ "message" := VString "" ]}
           "Hello from Cloudflare" "").
  - reflexivity.
  - reflexivity.
Defined.

Lemma banner_shows_message_verbatim_witness :
  ∃ out b p, Welcome (VObject props_hello) = Ok out
    ∧ find_banner out = Some b
    ∧ filter (λ n, is_banner n = true) (subnodes out) = [b]
    ∧ children b = [p]
    ∧ tag p = "p"
    ∧ children p = [NValue (VString "Hello from Cloudflare")].
Proof.
  apply (banner_shows_message_verbatim props_hello "Hello from Cloudflare").
  - reflexivity.
  - discriminate.
Defined.

Lemma loader_result_single_key_witness :
  request_context (request_of env_hello) env_hello
  ∧ ∃ o : gmap string value, loader (request_of env_hello) = Ok (VObject o)
      ∧ dom o = {[ "message" ]}
      ∧ ∀ k, k ≠ "message" → o !! k = None.
Proof.
  split; [econstructor; reflexivity|].
  apply (loader_result_single_key (request_of env_hello) env_hello).
  econstructor; reflexivity.
Defined.

(** * Beyond request contexts: every argument *)

Lemma get_cases (v : value) (k : string) :
  get v k = if nullish v then Throw TypeError else Ok (member v k).
Proof. by destruct v. Qed.


(** ** [loader] *)

(** X1: the loader's exact error condition and result, for every argument.
    It throws a TypeError when the argument, its [context], the context's
    [cloudflare] or that object's [env] is [undefined] or [null] (a missing
    property reads as [undefined]); in every other case it returns the
    object whose [message] is what [env.VALUE_FROM_CLOUDFLARE] reads as. *)
Theorem loader_throws_iff_path_nullish (args : value) :
  let context := member args "context" in
  let cloudflare := member context "cloudflare" in
  let env := member cloudflare "env" in
  loader args =
    if nullish args || nullish context || nullish cloudflare || nullish env
    then Throw TypeError
    else Ok (message_props (member env "VALUE_FROM_CLOUDFLARE")).
Proof.
  cbv zeta. unfold loader. rewrite get_cases.
  destruct (nullish args); [done|]. rewrite bind_Ok, get_cases.
  destruct (nullish (member args "context")); [done|]. rewrite bind_Ok, get_cases.
  destruct (nullish (member _ "cloudflare")); [done|]. rewrite bind_Ok, get_cases.
  by destruct (nullish (member _ "env")).
Qed.

(** ** [Home] *)

(** X2: [Home]'s exact error condition and result, for every props value.
    It throws a TypeError when the props or their [loaderData] are
    [undefined] or [null], as when the route is rendered without loader
    data; otherwise it returns the [Welcome] element whose only prop is
    [message], read from the loader data ([undefined] when the loader data
    have no message). *)
Theorem Home_throws_iff_loaderData_nullish (props : value) :
  let loaderData := member props "loaderData" in
  Home props =
    if nullish props || nullish loaderData
    then Throw TypeError
    else Ok (NWelcome (message_props (member loaderData "message"))).
Proof.
  cbv zeta. unfold Home. rewrite get_cases.
  destruct (nullish props); [done|]. rewrite bind_Ok, get_cases.
  by destruct (nullish (member props "loaderData")).
Qed.

(** ** [Welcome] on every message *)




(** ** The request as a whole *)



(** ** The properties beyond request contexts, at sample arguments *)




